(** * homeassistant/components/tplink/entity.py

    A shallow embedding of the common entity code of the tplink
    integration: the write-action wrapper [async_refresh_after], the
    constructor of [CoordinatedTPLinkEntity] with its unique-id and
    registry-device rules, the availability state machine, the feature
    enumerator and the description builder.

    Python objects become records, enums become inductive types, dicts
    become [gmap]s, sets become [gset]s.  Code that raises or that talks to
    the logger, the coordinator or the config entry runs in a small
    state-and-exception monad over the list of events emitted so far. *)

From stdpp Require Import base option list strings gmap.
From Stdlib Require Import Ascii.

Set Default Proof Using "Type".

(** ** Strings *)

(** [str.upper()] on the characters of a MAC address.  The letters [a]..[z]
    (codes 97..122) move to [A]..[Z]; every other ASCII character is left
    alone. *)
Definition upper_char (c : ascii) : ascii :=
  let n := nat_of_ascii c in
  if (97 <=? n)%nat && (n <=? 122)%nat then ascii_of_nat (n - 32) else c.

Fixpoint upper (s : string) : string :=
  match s with
  | EmptyString => EmptyString
  | String c s' => String (upper_char c) (upper s')
  end.

(** [s.replace(old, new)] for a non-empty [old]: scan left to right, and at
    every position where [old] starts emit [new] and jump over the match.
    The jump is the counter [skip]: that many characters are dropped before
    the scan resumes. *)
Fixpoint replace_from (old new : string) (skip : nat) (s : string) : string :=
  match s with
  | EmptyString => EmptyString
  | String c s' =>
      match skip with
      | S k => replace_from old new k s'
      | O =>
          if String.prefix old s
          then new +:+ replace_from old new (String.length old - 1) s'
          else String c (replace_from old new 0 s')
      end
  end.

Definition replace (old new s : string) : string := replace_from old new 0 s.

(** ** The device library: [kasa] *)

Module DeviceType.
(** [kasa.DeviceType]; the source names four members, the library has
    more. *)
Inductive t : Set :=
| Bulb
| LightStrip
| Dimmer
| Hub
| Plug
| Other (name : string).

#[global] Instance eq_dec : EqDecision t.
Proof. solve_decision. Defined.

#[global] Instance countable : Countable t.
Proof.
  refine (inj_countable'
    (fun x => match x with
              | Bulb => inl 0 | LightStrip => inl 1 | Dimmer => inl 2
              | Hub => inl 3 | Plug => inl 4 | Other s => inr s
              end)
    (fun y => match y with
              | inl 0 => Bulb | inl 1 => LightStrip | inl 2 => Dimmer
              | inl 3 => Hub | inl _ => Plug | inr s => Other s
              end) _).
  intros []; reflexivity.
Defined.
End DeviceType.

Module Feature.
(** [kasa.Feature.Category].  The source handles the members [Primary],
    [Config], [Info] and [Debug] by name and has a fallback for any
    other; [Unset] is that other member. *)
Inductive Category : Set := Primary | Config | Info | Debug | Unset.

(** [kasa.Feature.Type]: only compared for equality by this module. *)
Inductive Type_ : Set :=
| Sensor | BinarySensor | Switch | Action | Number | Choice | Unknown.

Record t : Set := mk {
  id : string;
  name : string;
  type : Type_;
  category : Category;
}.

#[global] Instance category_eq_dec : EqDecision Category.
Proof. solve_decision. Defined.

#[global] Instance category_countable : Countable Category.
Proof.
  refine (inj_countable'
    (fun c => match c with
              | Primary => 0 | Config => 1 | Info => 2 | Debug => 3
              | Unset => 4
              end)
    (fun n => match n with
              | 0 => Primary | 1 => Config | 2 => Info | 3 => Debug
              | _ => Unset
              end) _).
  intros []; reflexivity.
Defined.

#[global] Instance type_eq_dec : EqDecision Type_.
Proof. solve_decision. Defined.

#[global] Instance eq_dec : EqDecision t.
Proof. solve_decision. Defined.
End Feature.

Module Device.
(** [kasa.Device].  A device is a Python object: [obj_id] is its
    identity, which is what [==] and [!=] compare, the class defining no
    [__eq__].  [isinstance_IotDevice] records whether the object belongs
    to the legacy [kasa.iot.IotDevice] family.  [hw_info] is a dict,
    [features] a dict whose insertion order [values()] follows. *)
#[warnings="-register-all"]
Inductive t : Type := mk {
  obj_id : nat;
  device_id : string;
  alias : string;
  model : string;
  mac : string;
  device_type : DeviceType.t;
  isinstance_IotDevice : bool;
  hw_info : gmap string string;
  features : list (string * Feature.t);
  children : list t;
}.

(** [a != b] on two device objects. *)
Definition ne (a b : t) : bool := negb (obj_id a =? obj_id b)%nat.

(** [device.features.values()] *)
Definition features_values (d : t) : list Feature.t := (features d).*2.
End Device.

(** ** Exceptions, events and the monad of effectful code *)

(** The exception classes this module raises, catches or lets through.
    Every exception of the model is an instance of [Exception]. *)
Inductive ExcClass : Set :=
| Exception
| KeyError
| KasaException
| AuthenticationError
| TimeoutError
| HomeAssistantError.

#[global] Instance ExcClass_eq_dec : EqDecision ExcClass.
Proof. solve_decision. Defined.

(** [issubclass(c, base)]: both [AuthenticationError] and [TimeoutError]
    are device-library exceptions, and everything is an [Exception]. *)
Definition issubclass (c base : ExcClass) : bool :=
  match base with
  | Exception => true
  | KasaException =>
      match c with
      | KasaException | AuthenticationError | TimeoutError => true
      | _ => false
      end
  | _ => bool_decide (c = base)
  end.

(** An exception object.  [Exc c text] is an instance of [c] whose [str()]
    is [text].  [HAError] is a [HomeAssistantError] built from translation
    arguments and chained to its cause by [raise ... from ex]. *)
Inductive PyExc : Type :=
| Exc (c : ExcClass) (text : string)
| HAError (translation_domain translation_key : string)
    (translation_placeholders : gmap string string) (cause : PyExc).

Definition exc_class (ex : PyExc) : ExcClass :=
  match ex with
  | Exc c _ => c
  | HAError _ _ _ _ => HomeAssistantError
  end.

Definition isinstance_exc (ex : PyExc) (base : ExcClass) : bool :=
  issubclass (exc_class ex) base.

Inductive LogLevel : Set := DEBUG | WARNING | ERROR.

(** The arguments of a logging call, kept unformatted. *)
Inductive LogArg : Type :=
| ArgStr (s : string)
| ArgNone
| ArgInt (n : nat)
| ArgDevice (d : Device.t)
| ArgCategory (c : Feature.Category)
| ArgExc (ex : PyExc).

(** What the code does to the world outside the entity. *)
Inductive Event : Type :=
| Log (level : LogLevel) (msg : string) (args : list LogArg)
| StartReauth
| RequestRefresh
| SuperHandleCoordinatorUpdate.

Inductive Outcome (A : Type) : Type :=
| Returned (a : A)
| Raised (ex : PyExc).
Arguments Returned {A} a.
Arguments Raised {A} ex.

(** A computation starts from the events emitted so far and ends with a
    value or a raised exception, and the events emitted by then. *)
Definition M (A : Type) : Type := list Event -> Outcome A * list Event.

Definition ret {A} (a : A) : M A := fun w => (Returned a, w).

Definition bind {A B} (m : M A) (k : A -> M B) : M B :=
  fun w =>
    match m w with
    | (Returned a, w') => k a w'
    | (Raised ex, w') => (Raised ex, w')
    end.

Definition raise {A} (ex : PyExc) : M A := fun w => (Raised ex, w).

Definition emit (e : Event) : M unit := fun w => (Returned tt, (w ++ [e])%list).

(** [try: m  except <handler>: ...  else: ...].  [handler ex] is [None]
    when no [except] clause matches [ex], which then propagates. *)
Definition try_except_else {A B} (m : M A)
    (handler : PyExc -> option (M B)) (orelse : A -> M B) : M B :=
  fun w =>
    match m w with
    | (Returned a, w') => orelse a w'
    | (Raised ex, w') =>
        match handler ex with
        | Some h => h w'
        | None => (Raised ex, w')
        end
    end.

Declare Scope py_scope.
Delimit Scope py_scope with py.
Notation "x <- m ;; k" := (bind m (fun x => k))
  (at level 100, m at next level, right associativity) : py_scope.
Notation "m ;;; k" := (bind m (fun _ => k))
  (at level 100, right associativity) : py_scope.
Local Open Scope py_scope.

(** [d[key]] on a dict: a missing key raises [KeyError], whose text is the
    repr of the key. *)
Definition getitem (d : gmap string string) (key : string) : M string :=
  match d !! key with
  | Some v => ret v
  | None => raise (Exc KeyError ("'" +:+ key +:+ "'"))
  end.

(** A list comprehension whose element expression may raise. *)
Fixpoint mapM {A B} (f : A -> M B) (l : list A) : M (list B) :=
  match l with
  | [] => ret []
  | a :: l' => b <- f a ;; bs <- mapM f l' ;; ret (b :: bs)
  end.

(** The events of one kind in a trace. *)
Definition count_event (P : Event -> bool) (w : list Event) : nat :=
  length (filter (fun e => P e = true) w).

Definition is_refresh (e : Event) : bool :=
  match e with RequestRefresh => true | _ => false end.

Definition is_reauth (e : Event) : bool :=
  match e with StartReauth => true | _ => false end.


(** ** The platform: [homeassistant] *)

(** [homeassistant.const.EntityCategory] *)
Inductive EntityCategory : Set := CONFIG | DIAGNOSTIC.

#[global] Instance EntityCategory_eq_dec : EqDecision EntityCategory.
Proof. solve_decision. Defined.

(** Mapping from upstream category to homeassistant category *)
Definition FEATURE_CATEGORY_TO_ENTITY_CATEGORY
    : gmap Feature.Category EntityCategory :=
  {[ Feature.Config := CONFIG;
     Feature.Info := DIAGNOSTIC;
     Feature.Debug := DIAGNOSTIC ]}.

(** Skips creating entities for primary features supported by a specialized
    platform. *)
Definition DEVICETYPES_WITH_SPECIALIZED_PLATFORMS : gset DeviceType.t :=
  {[ DeviceType.Bulb; DeviceType.LightStrip; DeviceType.Dimmer ]}.

Module DeviceInfo.
(** [DeviceInfo] is a TypedDict: a key that was never assigned is [None]
    here.  The constructor assigns the first six keys at once and one of
    the last two afterwards. *)
Record t : Type := mk {
  identifiers : gset (string * string);
  manufacturer : string;
  model : string;
  name : string;
  sw_version : string;
  hw_version : string;
  via_device : option (string * string);
  connections : option (gset (string * string));
}.

(** [info["via_device"] = v] *)
Definition set_via_device (v : string * string) (info : t) : t :=
  mk (identifiers info) (manufacturer info) (model info) (name info)
     (sw_version info) (hw_version info) (Some v) (connections info).

(** [info["connections"] = c] *)
Definition set_connections (c : gset (string * string)) (info : t) : t :=
  mk (identifiers info) (manufacturer info) (model info) (name info)
     (sw_version info) (hw_version info) (via_device info) (Some c).
End DeviceInfo.

Module EntityDescription.
(** The fields of an entity description that this module sets. *)
Record t : Set := mk {
  key : string;
  translation_key : string;
  name : string;
  entity_registry_enabled_default : bool;
}.
End EntityDescription.

(** Extra kwargs that can be provided to entity descriptions: a TypedDict
    with [total=False], so its one key may be missing. *)
Record EntityDescriptionExtras : Set := {
  entity_registry_enabled_default : option bool;
}.

(** What the constructor and [_get_unique_id] ask of [self] beyond what
    they set themselves: the concrete entity class ([isinstance] against
    the two platform base classes) and the [entity_description] attribute
    as the subclass left it ([None] for Python's [None]). *)
Record Self : Set := {
  isinstance_SensorEntity : bool;
  isinstance_LightEntity : bool;
  entity_description : option EntityDescription.t;
}.

(** A reference to the shared coordinator object. *)
Definition Coordinator : Set := nat.

(** The attributes of a constructed [CoordinatedTPLinkEntity].
    [_attr_name] is [None] while the constructor has not assigned it;
    [entity_id] is assigned by the platform when the entity is added and
    [_attr_available] starts out as the platform default, [True]. *)
Record Entity : Type := {
  self_class : Self;
  coordinator : Coordinator;
  _device : Device.t;
  _feature : option Feature.t;
  _attr_name : option string;
  _attr_device_info : DeviceInfo.t;
  _attr_unique_id : option string;
  _attr_entity_category : option EntityCategory;
  _attr_available : bool;
  entity_id : option string;
}.

(** A write action handed to the decorator: its [__name__] and what calling
    it on an entity, arguments already supplied, does. *)
Record Action : Type := {
  __name__ : string;
  call : Entity -> M unit;
}.

(** ** entity.py *)

Section entity.

(** Constants of [.const] and of the device registry, and the helper
    [legacy_device_id] of the package: all defined outside this file. *)
Variable DOMAIN : string.
Variable PRIMARY_STATE_ID : string.
Variable CONNECTION_NETWORK_MAC : string.
Variable legacy_device_id : Device.t -> string.

(** The body of one [except ... as ex] clause of the wrapper: raise the
    translated error from [ex]. *)
Definition raise_translated (translation_key : string) (func : Action)
    (text : string) (ex : PyExc) : M unit :=
  raise (HAError DOMAIN translation_key
           {[ "func" := __name__ func; "exc" := text ]} ex).

(** Define a wrapper to raise HA errors and refresh after.

    The three [except] clauses are tried in order.  [str(ex)] is the text
    of the caught exception; a [HomeAssistantError] raised by the wrapped
    function is an instance of none of the three classes. *)
Definition async_refresh_after (func : Action) (self : Entity) : M unit :=
  try_except_else (call func self)
    (fun ex =>
       match ex with
       | Exc c text =>
           if issubclass c AuthenticationError then
             Some (emit StartReauth ;;;
                   raise_translated "device_authentication" func text ex)
           else if issubclass c TimeoutError then
             Some (raise_translated "device_timeout" func text ex)
           else if issubclass c KasaException then
             Some (raise_translated "device_error" func text ex)
           else None
       | HAError _ _ _ _ => None
       end)
    ret ;;;
  emit RequestRefresh.

(** Return unique ID for the entity.  Reads [self._device] and
    [self._feature], which the constructor has assigned by then; falling
    off the end of the function returns [None]. *)
Definition _get_unique_id (self : Self) (device : Device.t)
    (feature : option Feature.t) : option string :=
  match feature with
  | Some f =>
      let feature_id := Feature.id f in
      if String.eqb feature_id PRIMARY_STATE_ID then
        Some (legacy_device_id device)
      else
        Some (legacy_device_id device +:+ "_" +:+ feature_id)
  | None =>
      if isinstance_LightEntity self then
        let unique_id := upper (replace ":" "" (Device.mac device)) in
        let unique_id :=
          if bool_decide (Device.device_type device = DeviceType.Dimmer)
             && Device.isinstance_IotDevice device
          then legacy_device_id device
          else unique_id in
        Some unique_id
      else
        match entity_description self with
        | Some description =>
            Some (legacy_device_id device +:+ "_"
                  +:+ EntityDescription.key description)
        | None => None
        end
  end.

(** Return entity category for a feature. *)
Definition _category_for_feature (feature : option Feature.t)
    : M (option EntityCategory) :=
  match feature with
  | None => ret None
  | Some f =>
      if bool_decide (Feature.category f = Feature.Primary) then ret None
      else
        match FEATURE_CATEGORY_TO_ENTITY_CATEGORY !! Feature.category f with
        | Some entity_category => ret (Some entity_category)
        | None =>
            emit (Log ERROR "Unhandled category %s, fallback to DIAGNOSTIC"
                    [ArgCategory (Feature.category f)]) ;;;
            ret (Some DIAGNOSTIC)
        end
  end.

(** The first [if] of the constructor: which device the entity is filed
    under, the name of that device, and the value assigned to
    [self._attr_name], if any.  A device or feature object is always
    truthy, so [if parent] and [not feature] test for [None]. *)
Definition registry_assignment (self : Self) (device : Device.t)
    (feature : option Feature.t) (parent : option Device.t)
    : Device.t * string * option string :=
  match parent with
  | Some p =>
      if negb (bool_decide (Device.device_type p = DeviceType.Hub)) then
        if negb (isinstance_SensorEntity self)
           && match feature with
              | None => true
              | Some f => bool_decide (Feature.category f = Feature.Primary)
              end
        then (p, Device.alias p, Some (Device.alias device))
        else (device, Device.alias p +:+ " " +:+ Device.alias device, None)
      else (device, Device.alias device, None)
  | None => (device, Device.alias device, None)
  end.

(** Initialize the entity. *)
Definition __init__ (self : Self) (device : Device.t)
    (coordinator : Coordinator) (feature : option Feature.t)
    (parent : option Device.t) : M Entity :=
  let '(registry_device, name, attr_name) :=
    registry_assignment self device feature parent in
  sw_ver <- getitem (Device.hw_info registry_device) "sw_ver" ;;
  hw_ver <- getitem (Device.hw_info registry_device) "hw_ver" ;;
  let device_info :=
    {| DeviceInfo.identifiers := {[ (DOMAIN, Device.device_id registry_device) ]};
       DeviceInfo.manufacturer := "TP-Link";
       DeviceInfo.model := Device.model registry_device;
       DeviceInfo.name := name;
       DeviceInfo.sw_version := sw_ver;
       DeviceInfo.hw_version := hw_ver;
       DeviceInfo.via_device := None;
       DeviceInfo.connections := None |} in
  let device_info :=
    match parent with
    | Some p =>
        if Device.ne p registry_device then
          DeviceInfo.set_via_device (DOMAIN, Device.device_id p) device_info
        else
          DeviceInfo.set_connections
            {[ (CONNECTION_NETWORK_MAC, Device.mac device) ]} device_info
    | None =>
        DeviceInfo.set_connections
          {[ (CONNECTION_NETWORK_MAC, Device.mac device) ]} device_info
    end in
  let unique_id := _get_unique_id self device feature in
  entity_category <- _category_for_feature feature ;;
  ret {| self_class := self;
         coordinator := coordinator;
         _device := device;
         _feature := feature;
         _attr_name := attr_name;
         _attr_device_info := device_info;
         _attr_unique_id := unique_id;
         _attr_entity_category := entity_category;
         _attr_available := true;
         entity_id := None |}.

(** [self._attr_available = value] *)
Definition set_available (value : bool) (self : Entity) : Entity :=
  {| self_class := self_class self;
     coordinator := coordinator self;
     _device := _device self;
     _feature := _feature self;
     _attr_name := _attr_name self;
     _attr_device_info := _attr_device_info self;
     _attr_unique_id := _attr_unique_id self;
     _attr_entity_category := _attr_entity_category self;
     _attr_available := value;
     entity_id := entity_id self |}.

(** Call update_attrs and make entity unavailable on error.

    [_async_update_attrs] is the abstract hook of the platforms: it updates
    what the subclass keeps and may raise.  [except Exception] catches
    every exception of the model, each an instance of [Exception]. *)
Definition _async_call_update_attrs (_async_update_attrs : M unit)
    (self : Entity) : M Entity :=
  try_except_else _async_update_attrs
    (fun ex =>
       if isinstance_exc ex Exception then
         Some ((if _attr_available self then
                  emit (Log WARNING "Unable to read data for %s %s: %s"
                          [ArgDevice (_device self);
                           from_option ArgStr ArgNone (entity_id self);
                           ArgExc ex])
                else ret tt) ;;;
               ret (set_available false self))
       else None)
    (fun _ => ret (set_available true self)).

(** Handle updated data from the coordinator. *)
Definition _handle_coordinator_update (_async_update_attrs : M unit)
    (self : Entity) : M Entity :=
  self' <- _async_call_update_attrs _async_update_attrs self ;;
  emit SuperHandleCoordinatorUpdate ;;;
  ret self'.

(** Return if entity is available: the coordinator's flag as it is when
    the property is read, and the entity's own. *)
Definition available (last_update_success : bool) (self : Entity) : bool :=
  last_update_success && _attr_available self.

(** Return a list of entities to add.  [entity_class] stands for the class
    whose constructor is called with the keyword arguments [feature] and
    [parent]. *)
Definition _entities_for_device (device : Device.t)
    (coordinator : Coordinator) (feature_type : Feature.Type_)
    (entity_class : Self) (parent : option Device.t) : M (list Entity) :=
  mapM (fun feat => __init__ entity_class device coordinator (Some feat) parent)
       (filter
          (fun feat =>
             Feature.type feat = feature_type
             /\ (Feature.category feat <> Feature.Primary
                 \/ Device.device_type device
                      ∉ DEVICETYPES_WITH_SPECIALIZED_PLATFORMS))
          (Device.features_values device)).

(** Create entities for device and its children. *)
Definition _entities_for_device_and_its_children (device : Device.t)
    (coordinator : Coordinator) (feature_type : Feature.Type_)
    (entity_class : Self) : M (list Entity) :=
  entities <-
    match Device.children device with
    | [] => ret []
    | _ :: _ =>
        emit (Log DEBUG "Initializing device with %s children"
                [ArgInt (length (Device.children device))]) ;;;
        per_child <-
          mapM (fun child =>
                  _entities_for_device child coordinator feature_type
                    entity_class (Some device))
               (Device.children device) ;;
        ret (concat per_child)
    end ;;
  own <- _entities_for_device device coordinator feature_type entity_class
           None ;;
  ret (entities ++ own)%list.

(** The call [desc_cls(key=..., translation_key=..., name=..., **kwargs)]:
    a key missing from [kwargs] takes the default of the description
    class, which is [True] for [entity_registry_enabled_default]. *)
Definition desc_cls (key translation_key name : string)
    (kwargs : EntityDescriptionExtras) : EntityDescription.t :=
  EntityDescription.mk key translation_key name
    (default true (entity_registry_enabled_default kwargs)).

(** Return description object for the given feature. *)
Definition _description_for_feature (feature : Feature.t)
    (kwargs : EntityDescriptionExtras) : EntityDescription.t :=
  (* Disable all debug features that are not explicitly enabled. *)
  let kwargs :=
    match entity_registry_enabled_default kwargs with
    | None =>
        {| entity_registry_enabled_default :=
             Some (negb (bool_decide
                           (Feature.category feature = Feature.Debug))) |}
    | Some _ => kwargs
    end in
  desc_cls (Feature.id feature) (Feature.id feature) (Feature.name feature)
    kwargs.

(** ** Specification-side definitions *)

(** The MAC "with separators removed, upper-cased", character by
    character: a colon is dropped, any other character is upper-cased. *)
Fixpoint mac_without_separators_upper (s : string) : string :=
  match s with
  | EmptyString => EmptyString
  | String c s' =>
      if Ascii.eqb c ":" then mac_without_separators_upper s'
      else String (upper_char c) (mac_without_separators_upper s')
  end.

(** The registry-device record carries a link of exactly one kind. *)
Definition exactly_one_link (info : DeviceInfo.t) : Prop :=
  (is_Some (DeviceInfo.connections info) /\ DeviceInfo.via_device info = None)
  \/ (DeviceInfo.connections info = None /\ is_Some (DeviceInfo.via_device info)).

(** The number of failure streaks in a run of refreshes, [true] standing
    for a refresh whose hook raised: a streak starts at a failure that does
    not follow another failure.  [prev_failed] tells how the refresh before
    the run ended. *)
Fixpoint failure_streaks (prev_failed : bool) (raised : list bool) : nat :=
  match raised with
  | [] => 0
  | r :: rest =>
      (if r && negb prev_failed then 1 else 0) + failure_streaks r rest
  end.

(** The record the constructor builds before it attaches a link. *)
Definition base_info (registry_device : Device.t) (name sw hw : string)
    : DeviceInfo.t :=
  {| DeviceInfo.identifiers :=
       {[ (DOMAIN, Device.device_id registry_device) ]};
     DeviceInfo.manufacturer := "TP-Link";
     DeviceInfo.model := Device.model registry_device;
     DeviceInfo.name := name;
     DeviceInfo.sw_version := sw;
     DeviceInfo.hw_version := hw;
     DeviceInfo.via_device := None;
     DeviceInfo.connections := None |}.

(** The registry-device record [info] describes the device [d]: its
    identifier, its model and its hardware and software versions. *)
Definition registered_under (info : DeviceInfo.t) (d : Device.t) : Prop :=
  DeviceInfo.identifiers info = {[ (DOMAIN, Device.device_id d) ]}
  /\ DeviceInfo.model info = Device.model d
  /\ Device.hw_info d !! "sw_ver" = Some (DeviceInfo.sw_version info)
  /\ Device.hw_info d !! "hw_ver" = Some (DeviceInfo.hw_version info).

(** The rule for root devices as the specification words it: with no
    parent or with a Hub parent the entity is filed under its own device,
    the MAC is attached as a connection and there is no via_device link. *)
Definition root_registration_as_specified : Prop :=
  forall self device coordinator feature parent w e w',
    (parent = None
     \/ exists p, parent = Some p
                  /\ Device.device_type p = DeviceType.Hub) ->
    __init__ self device coordinator feature parent w = (Returned e, w') ->
    registered_under (_attr_device_info e) device
    /\ DeviceInfo.connections (_attr_device_info e)
         = Some {[ (CONNECTION_NETWORK_MAC, Device.mac device) ]}
    /\ DeviceInfo.via_device (_attr_device_info e) = None.

(** The rule for children of a non-Hub parent as the specification words
    it: a sensor-domain class, an absent feature or a Primary feature files
    the entity under the parent, named by the parent's alias, with no
    via_device link; anything else files it under the child, named by both
    aliases, with a via_device link to the parent. *)
Definition child_registration_as_specified : Prop :=
  forall self device coordinator feature p w e w',
    Device.device_type p <> DeviceType.Hub ->
    __init__ self device coordinator feature (Some p) w = (Returned e, w') ->
    let collapses :=
      isinstance_SensorEntity self = true
      \/ feature = None
      \/ exists f, feature = Some f
                   /\ Feature.category f = Feature.Primary in
    (collapses ->
       registered_under (_attr_device_info e) p
       /\ DeviceInfo.name (_attr_device_info e) = Device.alias p
       /\ DeviceInfo.via_device (_attr_device_info e) = None)
    /\ (~ collapses ->
         registered_under (_attr_device_info e) device
         /\ DeviceInfo.name (_attr_device_info e)
              = Device.alias p +:+ " " +:+ Device.alias device
         /\ DeviceInfo.via_device (_attr_device_info e)
              = Some (DOMAIN, Device.device_id p)).

(** A device whose [hw_info] holds both version keys the constructor
    reads. *)
Definition has_versions (d : Device.t) : Prop :=
  is_Some (Device.hw_info d !! "sw_ver")
  /\ is_Some (Device.hw_info d !! "hw_ver").

(** The filter rule of the feature enumerator as the specification words
    it, the specialized-platform device types spelled out. *)
Definition qualifies (device : Device.t) (feature_type : Feature.Type_)
    (feat : Feature.t) : Prop :=
  Feature.type feat = feature_type
  /\ (Feature.category feat <> Feature.Primary
      \/ ~ (Device.device_type device = DeviceType.Bulb
            \/ Device.device_type device = DeviceType.LightStrip
            \/ Device.device_type device = DeviceType.Dimmer)).

#[global] Instance qualifies_dec device feature_type feat :
  Decision (qualifies device feature_type feat).
Proof. unfold qualifies. apply _. Defined.

(** A hook that emits nothing and ends as scripted. *)
Definition scripted (o : Outcome unit) : M unit := fun w => (o, w).

Definition raised {A} (o : Outcome A) : bool :=
  match o with
  | Raised _ => true
  | Returned _ => false
  end.

(** A sequence of coordinator refreshes of one entity, the hook of each
    refresh given in turn. *)
Fixpoint refreshes (hooks : list (M unit)) (self : Entity) : M Entity :=
  match hooks with
  | [] => ret self
  | hook :: rest =>
      self' <- _handle_coordinator_update hook self ;;
      refreshes rest self'
  end.

(** The warning of [_async_call_update_attrs]. *)
Definition update_warning (self : Entity) (ex : PyExc) : Event :=
  Log WARNING "Unable to read data for %s %s: %s"
    [ArgDevice (_device self);
     from_option ArgStr ArgNone (entity_id self);
     ArgExc ex].

(** The translation key the wrapper picks for a device-library exception
    of class [c]. *)
Definition translation_key_of (c : ExcClass) : string :=
  match c with
  | AuthenticationError => "device_authentication"
  | TimeoutError => "device_timeout"
  | _ => "device_error"
  end.

(** ** Sample objects *)

Definition sample_hw_info : gmap string string :=
  {[ "sw_ver" := "1.0.5"; "hw_ver" := "2.0" ]}.

Definition sample_legacy_device_id (d : Device.t) : string :=
  Device.device_id d.

Definition feat_state : Feature.t :=
  Feature.mk "state" "State" Feature.Switch Feature.Primary.

Definition feat_led : Feature.t :=
  Feature.mk "led" "LED" Feature.Switch Feature.Config.

Definition feat_rssi : Feature.t :=
  Feature.mk "rssi" "RSSI" Feature.Sensor Feature.Debug.

Definition sample_features : list (string * Feature.t) :=
  [("state", feat_state); ("led", feat_led); ("rssi", feat_rssi)].

Definition plug_child : Device.t :=
  Device.mk 2 "8006AAAA_01" "Plug 1" "KP303" "aa:bb:cc:dd:ee:01"
    DeviceType.Plug true sample_hw_info sample_features [].

Definition strip_parent : Device.t :=
  Device.mk 1 "8006AAAA" "Power Strip" "KP303" "aa:bb:cc:dd:ee:00"
    (DeviceType.Other "Strip") true sample_hw_info sample_features
    [plug_child].

Definition hub_parent : Device.t :=
  Device.mk 3 "HUB0001" "Hub" "H100" "aa:bb:cc:dd:ee:10"
    DeviceType.Hub false sample_hw_info [] [].

Definition hub_child : Device.t :=
  Device.mk 4 "T315_0001" "Thermometer" "T315" "aa:bb:cc:dd:ee:11"
    (DeviceType.Other "Sensor") false sample_hw_info sample_features [].

Definition dimmer_iot : Device.t :=
  Device.mk 5 "8006BBBB" "Hall Dimmer" "HS220" "aa:bb:cc:dd:ee:20"
    DeviceType.Dimmer true sample_hw_info sample_features [].

Definition bulb : Device.t :=
  Device.mk 6 "8012CCCC" "Desk Lamp" "KL130" "aa:bb:cc:dd:ee:30"
    DeviceType.Bulb true sample_hw_info sample_features [].

Definition switch_class : Self :=
  {| isinstance_SensorEntity := false;
     isinstance_LightEntity := false;
     entity_description := None |}.

Definition sensor_class : Self :=
  {| isinstance_SensorEntity := true;
     isinstance_LightEntity := false;
     entity_description := None |}.

Definition turn_on : Action :=
  {| __name__ := "async_turn_on"; call := fun _ => ret tt |}.

Definition turn_on_rejected : Action :=
  {| __name__ := "async_turn_on";
     call := fun _ => raise (Exc AuthenticationError "Login failed") |}.

Definition sample_entity : Entity :=
  {| self_class := switch_class;
     coordinator := 0;
     _device := bulb;
     _feature := Some feat_led;
     _attr_name := None;
     _attr_device_info :=
       DeviceInfo.mk {[ ("tplink", "8012CCCC") ]} "TP-Link" "KL130"
         "Desk Lamp" "1.0.5" "2.0" None
         (Some {[ ("mac", "aa:bb:cc:dd:ee:30") ]});
     _attr_unique_id := Some "8012CCCC_led";
     _attr_entity_category := Some CONFIG;
     _attr_available := true;
     entity_id := Some "switch.desk_lamp_led" |}.

Definition light_class : Self :=
  {| isinstance_SensorEntity := false;
     isinstance_LightEntity := true;
     entity_description := None |}.

(** ** Further specification-side definitions and sample objects *)





(** The device and the feature an entity was built for. *)
Definition built_for (e : Entity) : Device.t * option Feature.t :=
  (_device e, _feature e).

(** The device and feature pairs the enumerator selects on one device. *)
Definition selected_on (feature_type : Feature.Type_) (device : Device.t)
    : list (Device.t * option Feature.t) :=
  (fun feat => (device, Some feat))
    <$> filter (qualifies device feature_type) (Device.features_values device).

(** The debug record of [_entities_for_device_and_its_children]. *)
Definition children_debug (device : Device.t) : Event :=
  Log DEBUG "Initializing device with %s children"
    [ArgInt (length (Device.children device))].


Definition bare_socket : Device.t :=
  Device.mk 7 "8006AAAA_02" "Plug 2" "KP303" "aa:bb:cc:dd:ee:02"
    DeviceType.Plug true ∅ sample_features [].

Definition strip_with_sockets : Device.t :=
  Device.mk 8 "8006DDDD" "Desk Strip" "HS300" "aa:bb:cc:dd:ee:40"
    (DeviceType.Other "Strip") true sample_hw_info sample_features
    [plug_child].

Definition legacy_sensor_class : Self :=
  {| isinstance_SensorEntity := true;
     isinstance_LightEntity := false;
     entity_description :=
       Some (EntityDescription.mk "current_consumption" "current_consumption"
               "Current consumption" true) |}.

Definition write_with_bug : Action :=
  {| __name__ := "async_set_value";
     call := fun _ => raise (Exc KeyError "'value'") |}.

(** ** Strings: helper lemmas *)

Lemma string_length_app (a b : string) :
  String.length (a +:+ b) = String.length a + String.length b.
Proof. induction a as [|c a IH]; simpl; [reflexivity | now rewrite IH]. Qed.

Lemma app_suffix_ne (a b : string) : b <> EmptyString -> a <> a +:+ b.
Proof.
  intros Hb Heq. apply (f_equal String.length) in Heq.
  rewrite string_length_app in Heq. destruct b; [congruence | simpl in Heq; lia].
Qed.

Lemma prefix_colon (c : ascii) (s : string) :
  String.prefix ":" (String c s) = Ascii.eqb c ":".
Proof.
  change (String.prefix ":" (String c s))
    with (if ascii_dec ":" c then String.prefix "" s else false).
  destruct (ascii_dec ":" c) as [<- | Hne].
  - destruct s; reflexivity.
  - symmetry. apply Ascii.eqb_neq. congruence.
Qed.

(** The source's [mac.replace(":", "").upper()] is the MAC with its
    separators removed and the rest upper-cased. *)
Lemma upper_replace_colon (s : string) :
  upper (replace ":" "" s) = mac_without_separators_upper s.
Proof.
  unfold replace. induction s as [|c s IH]; [reflexivity |].
  cbn [replace_from mac_without_separators_upper].
  rewrite prefix_colon. destruct (Ascii.eqb c ":"); simpl; [exact IH |].
  now rewrite IH.
Qed.

Example replace_skips_the_match :
  replace "ab" "X" "ababcabab" = "XXcXX".
Proof. reflexivity. Qed.

Example upper_replace_colon_mac :
  upper (replace ":" "" "aa:bb:cc:dd:ee:0f") = "AABBCCDDEE0F".
Proof. reflexivity. Qed.

(** ** The monad: helper lemmas *)

Lemma bind_Returned {A B} (m : M A) (k : A -> M B) w b w' :
  bind m k w = (Returned b, w') ->
  exists a w1, m w = (Returned a, w1) /\ k a w1 = (Returned b, w').
Proof.
  unfold bind. destruct (m w) as [[a | ex] w1]; [eauto | discriminate].
Qed.

Lemma getitem_Returned d key v w w' :
  getitem d key w = (Returned v, w') -> d !! key = Some v /\ w' = w.
Proof.
  unfold getitem. destruct (d !! key); unfold ret, raise; intros [= <- <-];
    auto.
Qed.

Lemma mapM_Returned {A B} (f : A -> M B) l w bs w' :
  mapM f l w = (Returned bs, w') ->
  Forall2 (fun a b => exists w1 w2, f a w1 = (Returned b, w2)) l bs.
Proof.
  revert w bs. induction l as [|a l IH]; intros w bs; simpl.
  - intros [= <- <-]. constructor.
  - intros H. apply bind_Returned in H as (b & w1 & Hb & H).
    apply bind_Returned in H as (bs' & w2 & Hbs & H).
    injection H as <- <-. constructor; eauto.
Qed.

Lemma mapM_returns {A B} (f : A -> M B) l :
  (forall a w, a ∈ l -> exists b w', f a w = (Returned b, w')) ->
  forall w, exists bs w', mapM f l w = (Returned bs, w').
Proof.
  induction l as [|a l IH]; intros Hf w; simpl; [unfold ret; eauto |].
  destruct (Hf a w) as (b & w1 & Hb); [left |].
  destruct (IH (fun a' w0 Ha' => Hf a' w0 (list_elem_of_further _ _ _ Ha')) w1)
    as (bs & w2 & Hbs).
  unfold bind. rewrite Hb, Hbs. unfold ret. eauto.
Qed.

Lemma _category_for_feature_returns feature w :
  exists c w', _category_for_feature feature w = (Returned c, w').
Proof.
  unfold _category_for_feature. destruct feature as [f|]; [| unfold ret; eauto].
  case_bool_decide; [unfold ret; eauto |].
  destruct (_ !! _); unfold bind, emit, ret; eauto.
Qed.

(** ** The constructor: what a returned entity holds *)

Lemma __init___Returned self device coordinator feature parent w e w' :
  __init__ self device coordinator feature parent w = (Returned e, w') ->
  exists registry_device name attr_name sw hw,
    registry_assignment self device feature parent
      = (registry_device, name, attr_name)
    /\ Device.hw_info registry_device !! "sw_ver" = Some sw
    /\ Device.hw_info registry_device !! "hw_ver" = Some hw
    /\ _device e = device
    /\ _feature e = feature
    /\ _attr_name e = attr_name
    /\ _attr_unique_id e = _get_unique_id self device feature
    /\ _attr_available e = true
    /\ _attr_device_info e =
         match parent with
         | Some p =>
             if Device.ne p registry_device then
               DeviceInfo.set_via_device (DOMAIN, Device.device_id p)
                 (base_info registry_device name sw hw)
             else
               DeviceInfo.set_connections
                 {[ (CONNECTION_NETWORK_MAC, Device.mac device) ]}
                 (base_info registry_device name sw hw)
         | None =>
             DeviceInfo.set_connections
               {[ (CONNECTION_NETWORK_MAC, Device.mac device) ]}
               (base_info registry_device name sw hw)
         end.
Proof.
  unfold __init__.
  destruct (registry_assignment self device feature parent)
    as [[registry_device name] attr_name].
  intros H.
  apply bind_Returned in H as (sw & w1 & Hsw & H).
  apply getitem_Returned in Hsw as [Hsw ->].
  apply bind_Returned in H as (hw & w2 & Hhw & H).
  apply getitem_Returned in Hhw as [Hhw ->].
  apply bind_Returned in H as (cat & w3 & _ & H).
  injection H as <- <-.
  exists registry_device, name, attr_name, sw, hw. simpl.
  repeat split; auto.
Qed.

Lemma __init___returns self device coordinator feature parent w :
  is_Some (Device.hw_info (registry_assignment self device feature parent).1.1
             !! "sw_ver") ->
  is_Some (Device.hw_info (registry_assignment self device feature parent).1.1
             !! "hw_ver") ->
  exists e w', __init__ self device coordinator feature parent w
               = (Returned e, w').
Proof.
  unfold __init__.
  destruct (registry_assignment self device feature parent)
    as [[registry_device name] attr_name]. simpl.
  intros [sw Hsw] [hw Hhw].
  destruct (_category_for_feature_returns feature w) as (c & w' & Hc).
  unfold bind, getitem. rewrite Hsw, Hhw. unfold ret at 1 2. rewrite Hc.
  unfold ret. eauto.
Qed.

(** ** Unique ids *)

Lemma _get_unique_id_feature_ne self1 self2 device f1 f2 :
  Feature.id f1 <> Feature.id f2 ->
  _get_unique_id self1 device (Some f1)
  <> _get_unique_id self2 device (Some f2).
Proof.
  intros Hne. unfold _get_unique_id.
  destruct (String.eqb_spec (Feature.id f1) PRIMARY_STATE_ID) as [E1 | N1],
           (String.eqb_spec (Feature.id f2) PRIMARY_STATE_ID) as [E2 | N2];
    intros H; apply (inj Some) in H.
  - congruence.
  - now apply app_suffix_ne in H.
  - symmetry in H. now apply app_suffix_ne in H.
  - apply String.app_inj in H. apply (String.app_inj "_") in H. congruence.
Qed.

(** C1: an entity constructed with a feature whose id is the primary-state
    id has the bare legacy device id as its unique id; with any other
    feature id it has [legacy_device_id(device)], an underscore and the
    feature id; and two entities constructed on the same device from
    features with distinct ids have distinct unique ids, whatever
    [legacy_device_id] returns. *)
Theorem unique_id_of_feature self device coordinator f parent w e w' :
  __init__ self device coordinator (Some f) parent w = (Returned e, w') ->
  (Feature.id f = PRIMARY_STATE_ID ->
     _attr_unique_id e = Some (legacy_device_id device))
  /\ (Feature.id f <> PRIMARY_STATE_ID ->
       _attr_unique_id e
       = Some (legacy_device_id device +:+ "_" +:+ Feature.id f))
  /\ (forall self2 coordinator2 f2 parent2 w2 e2 w2',
       __init__ self2 device coordinator2 (Some f2) parent2 w2
         = (Returned e2, w2') ->
       Feature.id f <> Feature.id f2 ->
       _attr_unique_id e <> _attr_unique_id e2).
Proof.
  intros H.
  apply __init___Returned in H as (? & ? & ? & ? & ? & _ & _ & _ & _ & _ & _ & Hid & _).
  rewrite Hid. split; [| split].
  - intros Heq. simpl. apply String.eqb_eq in Heq. now rewrite Heq.
  - intros Hne. simpl. apply String.eqb_neq in Hne. now rewrite Hne.
  - intros self2 coordinator2 f2 parent2 w2 e2 w2' H2 Hne.
    apply __init___Returned in H2
      as (? & ? & ? & ? & ? & _ & _ & _ & _ & _ & _ & Hid2 & _).
    rewrite Hid2. now apply _get_unique_id_feature_ne.
Qed.

(** C2: a light entity constructed with no feature has as unique id the
    device MAC with its [:] separators removed and upper-cased, unless the
    device is a Dimmer of the legacy IotDevice family, in which case the
    unique id is the legacy device id. *)
Theorem unique_id_of_light self device coordinator parent w e w' :
  __init__ self device coordinator None parent w = (Returned e, w') ->
  isinstance_LightEntity self = true ->
  (Device.device_type device = DeviceType.Dimmer
   /\ Device.isinstance_IotDevice device = true ->
     _attr_unique_id e = Some (legacy_device_id device))
  /\ (~ (Device.device_type device = DeviceType.Dimmer
         /\ Device.isinstance_IotDevice device = true) ->
       _attr_unique_id e
       = Some (mac_without_separators_upper (Device.mac device))).
Proof.
  intros H Hlight.
  apply __init___Returned in H as (? & ? & ? & ? & ? & _ & _ & _ & _ & _ & _ & Hid & _).
  rewrite Hid. unfold _get_unique_id. rewrite Hlight, upper_replace_colon.
  split.
  - intros [-> ->]. reflexivity.
  - intros Hnot. case_bool_decide as Hd; [| reflexivity].
    destruct (Device.isinstance_IotDevice device); [| reflexivity].
    exfalso. auto.
Qed.

(** C10: the public constructor accepts an input with no feature, a class
    that is not a light and no entity description, and on it
    [_get_unique_id] falls off its end: the constructed entity has no
    unique id. *)
Theorem unique_id_undefined_branch :
  exists self device coordinator parent e w',
    isinstance_LightEntity self = false
    /\ entity_description self = None
    /\ _get_unique_id self device None = None
    /\ __init__ self device coordinator None parent [] = (Returned e, w')
    /\ _attr_unique_id e = None.
Proof.
  exists switch_class, bulb, 0, None.
  destruct (__init___returns switch_class bulb 0 None None [])
    as (e & w' & He); [by eexists | by eexists |].
  exists e, w'. repeat split; try reflexivity; [exact He |].
  apply __init___Returned in He
    as (? & ? & ? & ? & ? & _ & _ & _ & _ & _ & _ & Hid & _).
  rewrite Hid. reflexivity.
Qed.

(** ** Registry devices *)

Lemma Device_ne_true (a b : Device.t) :
  Device.ne a b = true <-> Device.obj_id a <> Device.obj_id b.
Proof.
  unfold Device.ne. rewrite negb_true_iff. apply Nat.eqb_neq.
Qed.

Lemma Device_ne_refl (a : Device.t) : Device.ne a a = false.
Proof. unfold Device.ne. now rewrite Nat.eqb_refl. Qed.

Lemma registered_under_base rd name sw hw info :
  Device.hw_info rd !! "sw_ver" = Some sw ->
  Device.hw_info rd !! "hw_ver" = Some hw ->
  (exists v, info = DeviceInfo.set_via_device v (base_info rd name sw hw))
  \/ (exists c, info = DeviceInfo.set_connections c (base_info rd name sw hw)) ->
  registered_under info rd /\ DeviceInfo.name info = name.
Proof.
  intros Hsw Hhw [[v ->] | [c ->]]; unfold registered_under; simpl; auto.
Qed.

(** C3, as amended: with no parent the entity is filed under its own
    device, named by its alias, and the record carries the device MAC as a
    network connection and no via_device link.  With a Hub parent the
    entity is filed under its own device and named by its alias as well,
    but the record carries a via_device link to the hub and no connection
    whenever the hub is another object than the device. *)
Theorem registration_of_root_and_hub_child
    self device coordinator feature parent w e w' :
  __init__ self device coordinator feature parent w = (Returned e, w') ->
  (parent = None ->
     registered_under (_attr_device_info e) device
     /\ DeviceInfo.name (_attr_device_info e) = Device.alias device
     /\ DeviceInfo.connections (_attr_device_info e)
          = Some {[ (CONNECTION_NETWORK_MAC, Device.mac device) ]}
     /\ DeviceInfo.via_device (_attr_device_info e) = None)
  /\ (forall p,
       parent = Some p ->
       Device.device_type p = DeviceType.Hub ->
       Device.obj_id p <> Device.obj_id device ->
       registered_under (_attr_device_info e) device
       /\ DeviceInfo.name (_attr_device_info e) = Device.alias device
       /\ DeviceInfo.connections (_attr_device_info e) = None
       /\ DeviceInfo.via_device (_attr_device_info e)
            = Some (DOMAIN, Device.device_id p)).
Proof.
  intros H.
  apply __init___Returned in H
    as (rd & name & an & sw & hw & Hra & Hsw & Hhw & _ & _ & _ & _ & _ & Hinfo).
  split.
  - intros ->. simpl in Hra. injection Hra as <- <- <-.
    rewrite Hinfo.
    destruct (registered_under_base device (Device.alias device) sw hw
                (DeviceInfo.set_connections
                   {[ (CONNECTION_NETWORK_MAC, Device.mac device) ]}
                   (base_info device (Device.alias device) sw hw)))
      as [Hreg Hname]; eauto.
  - intros p -> Hhub Hne. simpl in Hra.
    rewrite bool_decide_eq_true_2 in Hra by exact Hhub. simpl in Hra.
    injection Hra as <- <- <-.
    apply Device_ne_true in Hne. rewrite Hne in Hinfo. rewrite Hinfo.
    destruct (registered_under_base device (Device.alias device) sw hw
                (DeviceInfo.set_via_device (DOMAIN, Device.device_id p)
                   (base_info device (Device.alias device) sw hw)))
      as [Hreg Hname]; eauto.
Qed.

(** C4, as amended: under a non-Hub parent P, an entity on child C whose
    class is not a sensor-domain class and whose feature is absent or of
    category Primary is filed under P, named by P's alias, with C's MAC as
    connection and no via_device link; an entity of a sensor-domain class,
    or one whose feature is of another category, is filed under C, named
    by P's alias, a space and C's alias, with a via_device link to P. *)
Theorem registration_under_non_hub_parent
    self device coordinator feature p w e w' :
  Device.device_type p <> DeviceType.Hub ->
  __init__ self device coordinator feature (Some p) w = (Returned e, w') ->
  (isinstance_SensorEntity self = false ->
   (feature = None
    \/ exists f, feature = Some f
                 /\ Feature.category f = Feature.Primary) ->
     registered_under (_attr_device_info e) p
     /\ DeviceInfo.name (_attr_device_info e) = Device.alias p
     /\ _attr_name e = Some (Device.alias device)
     /\ DeviceInfo.connections (_attr_device_info e)
          = Some {[ (CONNECTION_NETWORK_MAC, Device.mac device) ]}
     /\ DeviceInfo.via_device (_attr_device_info e) = None)
  /\ ((isinstance_SensorEntity self = true
       \/ exists f, feature = Some f
                    /\ Feature.category f <> Feature.Primary) ->
      Device.obj_id p <> Device.obj_id device ->
       registered_under (_attr_device_info e) device
       /\ DeviceInfo.name (_attr_device_info e)
            = Device.alias p +:+ " " +:+ Device.alias device
       /\ DeviceInfo.connections (_attr_device_info e) = None
       /\ DeviceInfo.via_device (_attr_device_info e)
            = Some (DOMAIN, Device.device_id p)).
Proof.
  intros Hhub H.
  apply __init___Returned in H
    as (rd & name & an & sw & hw & Hra & Hsw & Hhw & _ & _ & Han & _ & _ & Hinfo).
  simpl in Hra. rewrite bool_decide_eq_false_2 in Hra by exact Hhub.
  simpl in Hra. split.
  - intros Hsensor Hfeat. rewrite Hsensor in Hra. simpl in Hra.
    assert (Hcond : match feature with
                    | Some f =>
                        bool_decide (Feature.category f = Feature.Primary)
                    | None => true
                    end = true).
    { destruct Hfeat as [-> | (f & -> & Hf)]; [reflexivity |].
      now apply bool_decide_eq_true_2. }
    rewrite Hcond in Hra. injection Hra as <- <- <-.
    rewrite Device_ne_refl in Hinfo. rewrite Hinfo, Han.
    destruct (registered_under_base p (Device.alias p) sw hw
                (DeviceInfo.set_connections
                   {[ (CONNECTION_NETWORK_MAC, Device.mac device) ]}
                   (base_info p (Device.alias p) sw hw)))
      as [Hreg Hname]; eauto 10.
  - intros Hother Hne.
    assert (Hcond : negb (isinstance_SensorEntity self)
                    && match feature with
                       | Some f =>
                           bool_decide (Feature.category f = Feature.Primary)
                       | None => true
                       end = false).
    { destruct Hother as [-> | (f & -> & Hf)]; [reflexivity |].
      rewrite bool_decide_eq_false_2 by exact Hf. apply andb_false_r. }
    rewrite Hcond in Hra. injection Hra as <- <- <-.
    apply Device_ne_true in Hne. rewrite Hne in Hinfo. rewrite Hinfo.
    destruct (registered_under_base device
                (Device.alias p +:+ " " +:+ Device.alias device) sw hw
                (DeviceInfo.set_via_device (DOMAIN, Device.device_id p)
                   (base_info device
                      (Device.alias p +:+ " " +:+ Device.alias device) sw hw)))
      as [Hreg Hname]; eauto 10.
Qed.


(** ** The feature enumerator *)

Lemma registry_assignment_device self device feature parent :
  (registry_assignment self device feature parent).1.1 = device
  \/ parent = Some (registry_assignment self device feature parent).1.1.
Proof.
  unfold registry_assignment. destruct parent as [p |]; [| now left].
  repeat case_match; simpl; auto.
Qed.

Lemma specialized_platform_iff (dt : DeviceType.t) :
  dt ∈ DEVICETYPES_WITH_SPECIALIZED_PLATFORMS
  <-> dt = DeviceType.Bulb \/ dt = DeviceType.LightStrip
      \/ dt = DeviceType.Dimmer.
Proof.
  unfold DEVICETYPES_WITH_SPECIALIZED_PLATFORMS.
  rewrite !elem_of_union, !elem_of_singleton. tauto.
Qed.

Lemma enumerator_filter_qualifies device feature_type
    (l : list Feature.t) :
  filter
    (fun feat =>
       Feature.type feat = feature_type
       /\ (Feature.category feat <> Feature.Primary
           \/ Device.device_type device
                ∉ DEVICETYPES_WITH_SPECIALIZED_PLATFORMS)) l
  = filter (qualifies device feature_type) l.
Proof.
  apply list_filter_iff. intros feat. unfold qualifies.
  now rewrite specialized_platform_iff.
Qed.

Lemma constructed_features (R : Feature.t -> Entity -> Prop) feats es :
  (forall feat e, R feat e -> _feature e = Some feat) ->
  Forall2 R feats es -> _feature <$> es = Some <$> feats.
Proof.
  intros HR. induction 1 as [| feat e feats es Hfe _ IH]; [reflexivity |].
  rewrite !fmap_cons, IH. f_equal. now apply HR.
Qed.

(** C6: the enumerator returns one entity per feature of the device, in
    order, that has the requested type and that is either not of category
    Primary or sits on a device whose type is none of Bulb, LightStrip and
    Dimmer; so a feature of the device backs a returned entity if and only
    if it passes that test, and no Primary feature of a Bulb, LightStrip or
    Dimmer backs one.  The enumerator does return whenever the device and
    the parent hold their version keys. *)
Theorem enumerator_selects_qualifying_features
    device coordinator feature_type entity_class parent w :
  (has_versions device ->
   from_option has_versions True parent ->
   exists es w',
     _entities_for_device device coordinator feature_type entity_class
       parent w = (Returned es, w'))
  /\ (forall es w',
       _entities_for_device device coordinator feature_type entity_class
         parent w = (Returned es, w') ->
       _feature <$> es
       = Some <$> filter (qualifies device feature_type)
                    (Device.features_values device)
       /\ (forall feat,
            feat ∈ Device.features_values device ->
            (exists e, e ∈ es /\ _feature e = Some feat)
            <-> qualifies device feature_type feat)
       /\ (forall feat,
            Feature.category feat = Feature.Primary ->
            Device.device_type device
              ∈ DEVICETYPES_WITH_SPECIALIZED_PLATFORMS ->
            ~ exists e, e ∈ es /\ _feature e = Some feat)).
Proof.
  unfold _entities_for_device. split.
  - intros Hdev Hpar. apply mapM_returns. intros feat w0 _.
    destruct (registry_assignment_device entity_class device (Some feat) parent)
      as [Heq | Heq].
    + apply __init___returns; rewrite Heq; apply Hdev.
    + rewrite Heq in Hpar. apply __init___returns; apply Hpar.
  - intros es w' H. rewrite enumerator_filter_qualifies in H.
    apply mapM_Returned in H.
    assert (Hfeats : _feature <$> es
                     = Some <$> filter (qualifies device feature_type)
                                  (Device.features_values device)).
    { eapply constructed_features; [| exact H].
      intros feat e (w1 & w2 & He).
      now apply __init___Returned in He
        as (? & ? & ? & ? & ? & _ & _ & _ & _ & Hf & _). }
    assert (Hmem : forall feat,
               (exists e, e ∈ es /\ _feature e = Some feat)
               <-> feat ∈ filter (qualifies device feature_type)
                            (Device.features_values device)).
    { intros feat. split.
      - intros (e & He & Hf).
        assert (Hin : Some feat ∈ _feature <$> es)
          by (apply list_elem_of_fmap; eauto).
        rewrite Hfeats in Hin.
        apply list_elem_of_fmap in Hin as (feat' & [= ->] & Hin). exact Hin.
      - intros Hin.
        assert (Hin' : Some feat ∈ _feature <$> es).
        { rewrite Hfeats. apply list_elem_of_fmap. eauto. }
        apply list_elem_of_fmap in Hin' as (e & Hf & He). eauto. }
    split; [exact Hfeats | split].
    + intros feat Hin. rewrite Hmem, list_elem_of_filter. tauto.
    + intros feat Hprim Hspec Hex. apply Hmem in Hex.
      apply list_elem_of_filter in Hex as [[_ [Hcat | Hdt]] _];
        [congruence |].
      apply Hdt. now apply specialized_platform_iff.
Qed.

(** ** The description builder *)

(** C9: the description built for a feature has the feature id as key and
    as translation key and the feature name as name.  When the caller
    passes no [entity_registry_enabled_default], the description is
    disabled by default exactly when the feature is of category Debug, and
    enabled for every other category; a value the caller passes is kept. *)
Theorem description_for_feature_fields feature kwargs :
  let description := _description_for_feature feature kwargs in
  EntityDescription.key description = Feature.id feature
  /\ EntityDescription.translation_key description = Feature.id feature
  /\ EntityDescription.name description = Feature.name feature
  /\ (entity_registry_enabled_default kwargs = None ->
      (EntityDescription.entity_registry_enabled_default description = false
       <-> Feature.category feature = Feature.Debug)
      /\ (Feature.category feature <> Feature.Debug ->
          EntityDescription.entity_registry_enabled_default description
          = true))
  /\ (forall value,
      entity_registry_enabled_default kwargs = Some value ->
      EntityDescription.entity_registry_enabled_default description = value).
Proof.
  unfold _description_for_feature, desc_cls. simpl.
  split; [reflexivity | split; [reflexivity | split; [reflexivity | split]]].
  - intros Hnone. rewrite Hnone. simpl. split; [split |].
    + intros Hoff. apply negb_false_iff in Hoff.
      now apply bool_decide_eq_true_1 in Hoff.
    + intros Hd. now rewrite bool_decide_eq_true_2.
    + intros Hd. now rewrite bool_decide_eq_false_2.
  - intros value Hv. rewrite Hv. simpl. now rewrite Hv.
Qed.

(** ** The write-action wrapper *)

Lemma count_event_snoc (P : Event -> bool) (w : list Event) (e : Event) :
  count_event P (w ++ [e]) = count_event P w + (if P e then 1 else 0).
Proof.
  unfold count_event. rewrite filter_app, length_app.
  f_equal. rewrite filter_cons. destruct (P e); reflexivity.
Qed.

(** C7: when the wrapped action returns, the wrapper returns after exactly
    one refresh request, issued after everything the action did.  When the
    action raises a device-library exception, the wrapper requests no
    refresh and raises a HomeAssistantError whose placeholders hold the
    name of the action and the text of the exception, chained to that
    exception; for an AuthenticationError the re-authentication flow is
    started first, and for no other class. *)
Theorem refresh_after_write func self w w' :
  (call func self w = (Returned tt, w') ->
     async_refresh_after func self w = (Returned tt, w' ++ [RequestRefresh])
     /\ count_event is_refresh (w' ++ [RequestRefresh])
        = count_event is_refresh w' + 1)
  /\ (forall c text,
      call func self w = (Raised (Exc c text), w') ->
      issubclass c KasaException = true ->
      let w'' :=
        if issubclass c AuthenticationError then w' ++ [StartReauth]
        else w' in
      async_refresh_after func self w
      = (Raised (HAError DOMAIN (translation_key_of c)
                   {[ "func" := __name__ func; "exc" := text ]}
                   (Exc c text)), w'')
      /\ count_event is_refresh w'' = count_event is_refresh w'
      /\ count_event is_reauth w''
         = count_event is_reauth w'
           + (if bool_decide (c = AuthenticationError) then 1 else 0)).
Proof.
  unfold async_refresh_after, bind, try_except_else. split.
  - intros ->. split; [reflexivity |]. apply count_event_snoc.
  - intros c text -> Hkasa.
    destruct c; try discriminate Hkasa; simpl;
      rewrite ?count_event_snoc; simpl; auto with lia.
Qed.

(** ** The availability state machine *)






(** Raising once and then succeeding: the flag goes to false and back to
    true, and the one warning is that of the failing refresh. *)
Example availability_raise_then_succeed ex :
  refreshes [scripted (Raised ex); scripted (Returned tt)] sample_entity []
  = (Returned sample_entity,
     [update_warning sample_entity ex; SuperHandleCoordinatorUpdate;
      SuperHandleCoordinatorUpdate]).
Proof. reflexivity. Qed.

(** A streak of failures of any length, met by an available entity, logs
    one warning. *)
Lemma failure_streaks_one_streak n :
  failure_streaks false (replicate (S n) true) = 1.
Proof.
  simpl. induction n as [| n IH]; [reflexivity | exact IH].
Qed.

(** Effective availability needs the coordinator's last refresh to have
    succeeded, whatever the entity's own flag. *)
Lemma available_needs_coordinator self : available false self = false.
Proof. reflexivity. Qed.

(** ** The category classifier *)


(** ** The constructor: entity category and missing version keys *)





(** ** Unique ids: the remaining branches *)

(** X4: [_get_unique_id] yields an identifier exactly when a feature is
    given, or the entity is a light, or it has an entity description; on
    the legacy sensor path (none of the first two, a description) the
    identifier is the legacy device id, an underscore and the key of the
    description. *)
Theorem unique_id_defined_iff self device feature :
  (is_Some (_get_unique_id self device feature)
   <-> is_Some feature
       \/ isinstance_LightEntity self = true
       \/ is_Some (entity_description self))
  /\ (forall description,
      feature = None ->
      isinstance_LightEntity self = false ->
      entity_description self = Some description ->
      _get_unique_id self device feature
      = Some (legacy_device_id device +:+ "_"
              +:+ EntityDescription.key description)).
Proof.
  unfold _get_unique_id. split.
  - destruct feature as [f |].
    + destruct (String.eqb _ _); split; eauto.
    + destruct (isinstance_LightEntity self);
        [split; eauto |].
      destruct (entity_description self) as [d |]; split; eauto.
      * intros [? Hnone]. discriminate Hnone.
      * intros [[? Hnone] | [Hlight | [? Hnone]]]; discriminate.
  - intros description -> -> ->. reflexivity.
Qed.

(** X5: the legacy sensor path and the feature path agree.  An entity with
    no feature whose description was built from a feature by
    [_description_for_feature] gets the unique id that an entity for that
    feature gets, as long as the feature is not the primary-state one. *)
Theorem description_unique_id_matches_feature
    self self' device f kwargs :
  isinstance_LightEntity self = false ->
  entity_description self = Some (_description_for_feature f kwargs) ->
  Feature.id f <> PRIMARY_STATE_ID ->
  _get_unique_id self device None = _get_unique_id self' device (Some f).
Proof.
  intros Hlight Hdesc Hne. unfold _get_unique_id.
  rewrite Hlight, Hdesc. apply String.eqb_neq in Hne. now rewrite Hne.
Qed.

(** X6: on a Dimmer of the legacy family the light entity has the unique
    id of an entity for the primary-state feature of that device: both are
    the legacy device id. *)
Theorem legacy_dimmer_light_shares_primary_state_id
    self self' device f :
  isinstance_LightEntity self = true ->
  Device.device_type device = DeviceType.Dimmer ->
  Device.isinstance_IotDevice device = true ->
  Feature.id f = PRIMARY_STATE_ID ->
  _get_unique_id self device None = _get_unique_id self' device (Some f).
Proof.
  intros Hlight Hdimmer Hiot Hid. unfold _get_unique_id.
  rewrite Hlight, Hdimmer, Hiot, Hid, String.eqb_refl. reflexivity.
Qed.








(** ** The write-action wrapper: what it lets through *)

(** X8: an exception of the wrapped action that is no device-library
    exception (a KeyError of the action's own code, a HomeAssistantError)
    leaves the wrapper as it is: not translated, with no refresh request
    and no re-authentication. *)
Theorem wrapper_passes_other_exceptions func self w w' ex :
  call func self w = (Raised ex, w') ->
  isinstance_exc ex KasaException = false ->
  async_refresh_after func self w = (Raised ex, w').
Proof.
  intros Hcall Hother.
  unfold async_refresh_after, bind, try_except_else. rewrite Hcall.
  destruct ex as [c text | d k ps cause]; [| reflexivity].
  unfold isinstance_exc in Hother. simpl in Hother.
  destruct c; try discriminate Hother; reflexivity.
Qed.

(** X9: the wrapper returns only after the wrapped action has returned,
    and the refresh request is then the last thing that happened; it
    never turns a failed action into a normal return. *)
Theorem wrapper_returns_only_after_success func self w w'' :
  async_refresh_after func self w = (Returned tt, w'') ->
  exists w',
    call func self w = (Returned tt, w') /\ w'' = w' ++ [RequestRefresh].
Proof.
  unfold async_refresh_after, bind, try_except_else.
  destruct (call func self w) as [[[] | ex] w'] eqn:Hcall.
  - intros [= <-]. eauto.
  - destruct ex as [c text | d k ps cause]; [| discriminate].
    destruct c; simpl; discriminate.
Qed.

(** ** The feature enumerator: edges, identities, children *)

Lemma Forall2_fmap_eq {A B C} (R : A -> B -> Prop) (g : B -> C) (h : A -> C)
    (l : list A) (es : list B) :
  (forall a b, R a b -> g b = h a) ->
  Forall2 R l es -> g <$> es = h <$> l.
Proof.
  intros HR. induction 1 as [| a b l es Hab _ IH]; [reflexivity |].
  rewrite !fmap_cons, IH. f_equal. now apply HR.
Qed.

Lemma _entities_for_device_Forall2
    device coordinator feature_type entity_class parent w es w' :
  _entities_for_device device coordinator feature_type entity_class parent w
  = (Returned es, w') ->
  Forall2
    (fun feat e =>
       exists w1 w2,
         __init__ entity_class device coordinator (Some feat) parent w1
         = (Returned e, w2))
    (filter (qualifies device feature_type) (Device.features_values device))
    es.
Proof.
  unfold _entities_for_device. rewrite enumerator_filter_qualifies.
  apply mapM_Returned.
Qed.

Lemma _entities_for_device_returns
    device coordinator feature_type entity_class parent w :
  has_versions device ->
  from_option has_versions True parent ->
  exists es w',
    _entities_for_device device coordinator feature_type entity_class
      parent w = (Returned es, w').
Proof.
  intros Hdev Hpar. unfold _entities_for_device.
  apply mapM_returns. intros feat w0 _.
  destruct (registry_assignment_device entity_class device (Some feat) parent)
    as [Heq | Heq].
  - apply __init___returns; rewrite Heq; apply Hdev.
  - rewrite Heq in Hpar. apply __init___returns; apply Hpar.
Qed.

Lemma _entities_for_device_built_for
    device coordinator feature_type entity_class parent w es w' :
  _entities_for_device device coordinator feature_type entity_class parent w
  = (Returned es, w') ->
  built_for <$> es = selected_on feature_type device.
Proof.
  intros H. apply _entities_for_device_Forall2 in H.
  unfold selected_on. eapply Forall2_fmap_eq; [| exact H].
  intros feat e (w1 & w2 & He).
  apply __init___Returned in He
    as (? & ? & ? & ? & ? & _ & _ & _ & Hd & Hf & _).
  unfold built_for. now rewrite Hd, Hf.
Qed.

(** X10: on a device with no parent whose [hw_info] lacks [sw_ver], the
    enumerator returns the empty list when no feature qualifies, the
    [hw_info] never being read, and raises the KeyError of the key as soon
    as one does: there is no partial list. *)
Theorem enumerator_on_device_without_versions
    device coordinator feature_type entity_class w :
  Device.hw_info device !! "sw_ver" = None ->
  _entities_for_device device coordinator feature_type entity_class None w
  = match filter (qualifies device feature_type)
            (Device.features_values device) with
    | [] => (Returned [], w)
    | _ :: _ => (Raised (Exc KeyError "'sw_ver'"), w)
    end.
Proof.
  intros Hsw. unfold _entities_for_device.
  rewrite enumerator_filter_qualifies.
  destruct (filter _ _) as [| feat rest]; [reflexivity |].
  cbn [mapM]. unfold bind at 1. unfold __init__. simpl.
  unfold bind at 1. unfold getitem. now rewrite Hsw.
Qed.

Lemma NoDup_fmap_inj_on {A B} (f : A -> B) (l : list A) x y :
  NoDup (f <$> l) -> x ∈ l -> y ∈ l -> f x = f y -> x = y.
Proof.
  induction l as [| a l IH]; [intros _ Hx; now apply elem_of_nil in Hx |].
  rewrite fmap_cons, NoDup_cons.
  intros [Hnotin Hnodup] Hx Hy Hxy.
  apply elem_of_cons in Hx as [-> | Hx]; apply elem_of_cons in Hy as [-> | Hy].
  - reflexivity.
  - exfalso. apply Hnotin. rewrite Hxy. now apply list_elem_of_fmap_2.
  - exfalso. apply Hnotin. rewrite <- Hxy. now apply list_elem_of_fmap_2.
  - now apply IH.
Qed.

(** X11: when the features of a device have distinct ids, the entities the
    enumerator returns for it have pairwise distinct unique ids. *)
Theorem enumerated_unique_ids_distinct
    device coordinator feature_type entity_class parent w es w' :
  NoDup (Feature.id <$> Device.features_values device) ->
  _entities_for_device device coordinator feature_type entity_class parent w
  = (Returned es, w') ->
  NoDup (_attr_unique_id <$> es).
Proof.
  intros Hids H. apply _entities_for_device_Forall2 in H.
  assert (Hmap : _attr_unique_id <$> es
                 = (fun feat => _get_unique_id entity_class device (Some feat))
                     <$> filter (qualifies device feature_type)
                           (Device.features_values device)).
  { eapply Forall2_fmap_eq; [| exact H].
    intros feat e (w1 & w2 & He).
    now apply __init___Returned in He
      as (? & ? & ? & ? & ? & _ & _ & _ & _ & _ & _ & Hid & _). }
  rewrite Hmap.
  apply NoDup_fmap_2_strong.
  - intros f1 f2 Hf1%list_elem_of_filter Hf2%list_elem_of_filter Heq.
    destruct Hf1 as [_ Hf1], Hf2 as [_ Hf2].
    apply (NoDup_fmap_inj_on Feature.id _ _ _ Hids Hf1 Hf2).
    destruct (decide (Feature.id f1 = Feature.id f2)) as [Hsame | Hdiff];
      [exact Hsame |].
    exfalso.
    now apply (_get_unique_id_feature_ne entity_class entity_class device
                 f1 f2 Hdiff).
  - apply NoDup_filter. eapply NoDup_fmap_1. exact Hids.
Qed.

(** X12: every entity the enumerator returns is built on the device it was
    asked for, has a unique id (the branch of [_get_unique_id] that yields
    none is out of reach), carries exactly one link in its registry-device
    record and starts out available. *)
Theorem enumerated_entities_well_formed
    device coordinator feature_type entity_class parent w es w' :
  _entities_for_device device coordinator feature_type entity_class parent w
  = (Returned es, w') ->
  Forall (fun e =>
            _device e = device
            /\ is_Some (_attr_unique_id e)
            /\ exactly_one_link (_attr_device_info e)
            /\ _attr_available e = true) es.
Proof.
  intros H. apply _entities_for_device_Forall2 in H.
  induction H as [| feat e feats es (w1 & w2 & He) _ IH]; constructor;
    [| exact IH].
  apply __init___Returned in He
    as (rd & name & an & sw & hw & _ & _ & _ & Hd & _ & _ & Hid & Hav & Hinfo).
  split; [exact Hd | split; [| split; [| exact Hav]]].
  - rewrite Hid. unfold _get_unique_id. destruct (String.eqb _ _); eauto.
  - rewrite Hinfo. unfold exactly_one_link.
    destruct parent as [p |]; [destruct (Device.ne p rd) |]; simpl;
      [right | left | left]; split; eauto.
Qed.

Lemma bind_ret_r {A} (m : M A) w : bind m ret w = m w.
Proof. unfold bind, ret. now destruct (m w) as [[a | ex] w1]. Qed.

Lemma children_built_for
    device coordinator feature_type entity_class children per_child :
  Forall2
    (fun child es =>
       exists w1 w2,
         _entities_for_device child coordinator feature_type entity_class
           (Some device) w1 = (Returned es, w2))
    children per_child ->
  built_for <$> concat per_child
  = concat (selected_on feature_type <$> children).
Proof.
  induction 1 as [| child es children per_child (w1 & w2 & Hes) _ IH];
    [reflexivity |].
  rewrite fmap_cons. cbn [concat]. rewrite fmap_app, IH. f_equal.
  now apply _entities_for_device_built_for in Hes.
Qed.

(** X13: the enumerator for a device and its children returns the entities
    of the children first, child by child in order, and those of the device
    itself last, each built for the features that qualify on its own
    device.  With no children it is the enumerator for the device with no
    parent, and it returns whenever the device and all its children hold
    their version keys. *)
Theorem children_first_enumeration
    device coordinator feature_type entity_class w :
  (Device.children device = [] ->
   _entities_for_device_and_its_children device coordinator feature_type
     entity_class w
   = _entities_for_device device coordinator feature_type entity_class
       None w)
  /\ (forall es w',
      _entities_for_device_and_its_children device coordinator feature_type
        entity_class w = (Returned es, w') ->
      built_for <$> es
      = concat (selected_on feature_type <$> Device.children device)
        ++ selected_on feature_type device)
  /\ (has_versions device ->
      Forall has_versions (Device.children device) ->
      exists es w',
        _entities_for_device_and_its_children device coordinator
          feature_type entity_class w = (Returned es, w')).
Proof.
  unfold _entities_for_device_and_its_children. split; [| split].
  - intros ->. unfold bind at 1. unfold ret at 1.
    change (fun own => ret ([] ++ own)) with (@ret (list Entity)).
    apply bind_ret_r.
  - intros es w' H.
    apply bind_Returned in H as (entities & w1 & Hchildren & H).
    apply bind_Returned in H as (own & w2 & Hown & H).
    injection H as <- <-. rewrite fmap_app. f_equal.
    + destruct (Device.children device) as [| child rest] eqn:Hc.
      * injection Hchildren as <- <-. reflexivity.
      * apply bind_Returned in Hchildren as ([] & w3 & _ & Hchildren).
        apply bind_Returned in Hchildren as (per_child & w4 & Hper & Hret).
        injection Hret as <- <-. apply mapM_Returned in Hper.
        now apply children_built_for in Hper.
    + now apply _entities_for_device_built_for in Hown.
  - intros Hdev Hchildren.
    assert (Hfirst : exists entities w1,
               match Device.children device with
               | [] => ret []
               | _ :: _ =>
                   bind (emit (Log DEBUG "Initializing device with %s children"
                                 [ArgInt (length (Device.children device))]))
                     (fun _ =>
                        bind (mapM
                                (fun child =>
                                   _entities_for_device child coordinator
                                     feature_type entity_class (Some device))
                                (Device.children device))
                          (fun per_child => ret (concat per_child)))
               end w = (Returned entities, w1)).
    { destruct (Device.children device) as [| child rest] eqn:Hc;
        [unfold ret; eauto |].
      rewrite <- Hc in *. unfold bind at 1. unfold emit.
      destruct (mapM_returns
                  (fun child =>
                     _entities_for_device child coordinator feature_type
                       entity_class (Some device))
                  (Device.children device)
                  (fun child w0 Hin =>
                     _entities_for_device_returns child coordinator
                       feature_type entity_class (Some device) w0
                       (proj1 (Forall_forall _ _) Hchildren child Hin) Hdev)
                  (w ++ [Log DEBUG "Initializing device with %s children"
                           [ArgInt (length (Device.children device))]]))
        as (per_child & w1 & Hper).
      unfold bind. rewrite Hper. unfold ret. eauto. }
    destruct Hfirst as (entities & w1 & Hfirst).
    destruct (_entities_for_device_returns device coordinator feature_type
                entity_class None w1 Hdev I) as (own & w2 & Hown).
    unfold bind at 1. rewrite Hfirst. unfold bind. rewrite Hown.
    unfold ret. eauto.
Qed.

(** ** Availability: the effective flag and the frame of a refresh *)




End entity.

(** ** The theorems at the sample objects *)

(** The state and led switches of a strip socket: the bare legacy id, the
    suffixed one, and the two differ. *)
Lemma unique_id_of_feature_witness :
  exists e1 w1 e2 w2,
    __init__ "tplink" "state" "mac" sample_legacy_device_id switch_class
      plug_child 0 (Some feat_state) (Some strip_parent) [] = (Returned e1, w1)
    /\ __init__ "tplink" "state" "mac" sample_legacy_device_id switch_class
         plug_child 0 (Some feat_led) (Some strip_parent) [] = (Returned e2, w2)
    /\ _attr_unique_id e1 = Some "8006AAAA_01"
    /\ _attr_unique_id e2 = Some "8006AAAA_01_led"
    /\ _attr_unique_id e1 <> _attr_unique_id e2.
Proof.
  destruct (__init___returns "tplink" "state" "mac" sample_legacy_device_id
              switch_class plug_child 0 (Some feat_state) (Some strip_parent) [])
    as (e1 & w1 & H1); [by eexists | by eexists |].
  destruct (__init___returns "tplink" "state" "mac" sample_legacy_device_id
              switch_class plug_child 0 (Some feat_led) (Some strip_parent) [])
    as (e2 & w2 & H2); [by eexists | by eexists |].
  exists e1, w1, e2, w2.
  destruct (unique_id_of_feature _ _ _ _ _ _ _ _ _ _ _ _ H1) as (Hp & _ & Hd).
  destruct (unique_id_of_feature _ _ _ _ _ _ _ _ _ _ _ _ H2) as (_ & Hn & _).
  split; [exact H1 | split; [exact H2 | split; [| split]]].
  - apply Hp. reflexivity.
  - apply Hn. discriminate.
  - apply (Hd _ _ _ _ _ _ _ H2). discriminate.
Defined.

(** A bulb light takes its MAC, a legacy dimmer light its legacy id. *)
Lemma unique_id_of_light_witness :
  exists e1 w1 e2 w2,
    __init__ "tplink" "state" "mac" sample_legacy_device_id light_class
      bulb 0 None None [] = (Returned e1, w1)
    /\ __init__ "tplink" "state" "mac" sample_legacy_device_id light_class
         dimmer_iot 0 None None [] = (Returned e2, w2)
    /\ _attr_unique_id e1 = Some "AABBCCDDEE30"
    /\ _attr_unique_id e2 = Some "8006BBBB".
Proof.
  destruct (__init___returns "tplink" "state" "mac" sample_legacy_device_id
              light_class bulb 0 None None [])
    as (e1 & w1 & H1); [by eexists | by eexists |].
  destruct (__init___returns "tplink" "state" "mac" sample_legacy_device_id
              light_class dimmer_iot 0 None None [])
    as (e2 & w2 & H2); [by eexists | by eexists |].
  exists e1, w1, e2, w2.
  destruct (unique_id_of_light _ _ _ _ _ _ _ _ _ _ _ H1 eq_refl) as (_ & Hmac).
  destruct (unique_id_of_light _ _ _ _ _ _ _ _ _ _ _ H2 eq_refl) as (Hdim & _).
  split; [exact H1 | split; [exact H2 | split]].
  - apply Hmac. intros [Hd _]. discriminate Hd.
  - apply Hdim. split; reflexivity.
Defined.

(** The rule as specified fails on a device attached to a hub: its record
    holds a via_device link to the hub and no connection. *)
Lemma root_registration_as_specified_fails :
  ~ root_registration_as_specified "tplink" "state" "mac"
      sample_legacy_device_id.
Proof.
  intros Hclaim.
  destruct (__init___returns "tplink" "state" "mac" sample_legacy_device_id
              switch_class hub_child 0 (Some feat_led) (Some hub_parent) [])
    as (e & w' & He); [by eexists | by eexists |].
  destruct (Hclaim _ _ _ _ _ _ _ _
              (or_intror (ex_intro _ hub_parent (conj eq_refl eq_refl))) He)
    as (_ & Hconn & _).
  apply __init___Returned in He
    as (rd & name & an & sw & hw & Hra & _ & _ & _ & _ & _ & _ & _ & Hinfo).
  injection Hra as <- <- <-.
  rewrite Hinfo in Hconn. simpl in Hconn. discriminate Hconn.
Qed.

(** A bulb with no parent and a thermometer attached to a hub. *)
Lemma registration_of_root_and_hub_child_witness :
  exists e1 w1 e2 w2,
    __init__ "tplink" "state" "mac" sample_legacy_device_id switch_class
      bulb 0 (Some feat_led) None [] = (Returned e1, w1)
    /\ __init__ "tplink" "state" "mac" sample_legacy_device_id switch_class
         hub_child 0 (Some feat_led) (Some hub_parent) [] = (Returned e2, w2)
    /\ DeviceInfo.connections (_attr_device_info e1)
       = Some {[ ("mac", "aa:bb:cc:dd:ee:30") ]}
    /\ DeviceInfo.via_device (_attr_device_info e1) = None
    /\ DeviceInfo.name (_attr_device_info e2) = "Thermometer"
    /\ DeviceInfo.connections (_attr_device_info e2) = None
    /\ DeviceInfo.via_device (_attr_device_info e2)
       = Some ("tplink", "HUB0001").
Proof.
  destruct (__init___returns "tplink" "state" "mac" sample_legacy_device_id
              switch_class bulb 0 (Some feat_led) None [])
    as (e1 & w1 & H1); [by eexists | by eexists |].
  destruct (__init___returns "tplink" "state" "mac" sample_legacy_device_id
              switch_class hub_child 0 (Some feat_led) (Some hub_parent) [])
    as (e2 & w2 & H2); [by eexists | by eexists |].
  exists e1, w1, e2, w2.
  destruct (registration_of_root_and_hub_child _ _ _ _ _ _ _ _ _ _ _ _ H1)
    as (Hroot & _).
  destruct (registration_of_root_and_hub_child _ _ _ _ _ _ _ _ _ _ _ _ H2)
    as (_ & Hhub).
  destruct (Hroot eq_refl) as (_ & _ & Hconn1 & Hvia1).
  destruct (Hhub hub_parent eq_refl eq_refl ltac:(discriminate))
    as (_ & Hname2 & Hconn2 & Hvia2).
  repeat split; assumption.
Defined.

(** The rule as specified fails on a sensor-domain entity for the Primary
    feature of a strip socket: it is filed under the socket and linked to
    the strip. *)
Lemma child_registration_as_specified_fails :
  ~ child_registration_as_specified "tplink" "state" "mac"
      sample_legacy_device_id.
Proof.
  intros Hclaim.
  destruct (__init___returns "tplink" "state" "mac" sample_legacy_device_id
              sensor_class plug_child 0 (Some feat_state) (Some strip_parent) [])
    as (e & w' & He); [by eexists | by eexists |].
  destruct (Hclaim sensor_class plug_child 0 (Some feat_state) strip_parent
              [] e w' ltac:(discriminate) He) as (Hcollapse & _).
  destruct (Hcollapse (or_introl eq_refl)) as (_ & _ & Hvia).
  apply __init___Returned in He
    as (rd & name & an & sw & hw & Hra & _ & _ & _ & _ & _ & _ & _ & Hinfo).
  injection Hra as <- <- <-.
  rewrite Hinfo in Hvia. simpl in Hvia. discriminate Hvia.
Qed.

(** The state switch of a strip socket is filed under the strip, its led
    switch under the socket. *)
Lemma registration_under_non_hub_parent_witness :
  exists e1 w1 e2 w2,
    __init__ "tplink" "state" "mac" sample_legacy_device_id switch_class
      plug_child 0 (Some feat_state) (Some strip_parent) [] = (Returned e1, w1)
    /\ __init__ "tplink" "state" "mac" sample_legacy_device_id switch_class
         plug_child 0 (Some feat_led) (Some strip_parent) [] = (Returned e2, w2)
    /\ DeviceInfo.name (_attr_device_info e1) = "Power Strip"
    /\ _attr_name e1 = Some "Plug 1"
    /\ DeviceInfo.via_device (_attr_device_info e1) = None
    /\ DeviceInfo.name (_attr_device_info e2) = "Power Strip Plug 1"
    /\ DeviceInfo.via_device (_attr_device_info e2)
       = Some ("tplink", "8006AAAA").
Proof.
  destruct (__init___returns "tplink" "state" "mac" sample_legacy_device_id
              switch_class plug_child 0 (Some feat_state) (Some strip_parent) [])
    as (e1 & w1 & H1); [by eexists | by eexists |].
  destruct (__init___returns "tplink" "state" "mac" sample_legacy_device_id
              switch_class plug_child 0 (Some feat_led) (Some strip_parent) [])
    as (e2 & w2 & H2); [by eexists | by eexists |].
  exists e1, w1, e2, w2.
  destruct (registration_under_non_hub_parent
              "tplink" "state" "mac" sample_legacy_device_id switch_class
              plug_child 0 (Some feat_state) strip_parent [] e1 w1
              ltac:(discriminate) H1) as (Hparent & _).
  destruct (registration_under_non_hub_parent
              "tplink" "state" "mac" sample_legacy_device_id switch_class
              plug_child 0 (Some feat_led) strip_parent [] e2 w2
              ltac:(discriminate) H2) as (_ & Hchild).
  destruct (Hparent eq_refl
              (or_intror (ex_intro _ feat_state (conj eq_refl eq_refl))))
    as (_ & Hname1 & Han1 & _ & Hvia1).
  assert (Hcat : Feature.category feat_led <> Feature.Primary)
    by discriminate.
  assert (Hobj : Device.obj_id strip_parent <> Device.obj_id plug_child)
    by discriminate.
  destruct (Hchild (or_intror (ex_intro _ feat_led (conj eq_refl Hcat))) Hobj)
    as (_ & Hname2 & _ & Hvia2).
  repeat split; assumption.
Defined.


(** The switches of a bulb: the Primary state switch is left to the light
    platform, the led switch remains. *)
Lemma enumerator_selects_qualifying_features_witness :
  exists es w',
    _entities_for_device "tplink" "state" "mac" sample_legacy_device_id
      bulb 0 Feature.Switch switch_class None [] = (Returned es, w')
    /\ _feature <$> es = [Some feat_led].
Proof.
  destruct (proj1 (enumerator_selects_qualifying_features
                     "tplink" "state" "mac" sample_legacy_device_id
                     bulb 0 Feature.Switch switch_class None [])
              (conj (ex_intro _ "1.0.5" eq_refl) (ex_intro _ "2.0" eq_refl)) I)
    as (es & w' & Hes).
  exists es, w'. split; [exact Hes |].
  exact (proj1 (proj2 (enumerator_selects_qualifying_features
                         "tplink" "state" "mac" sample_legacy_device_id
                         bulb 0 Feature.Switch switch_class None [])
                  es w' Hes)).
Defined.

(** A write that succeeds, and one the device rejects for its
    credentials. *)
Lemma refresh_after_write_witness :
  async_refresh_after "tplink" turn_on sample_entity []
  = (Returned tt, [RequestRefresh])
  /\ async_refresh_after "tplink" turn_on_rejected sample_entity []
     = (Raised (HAError "tplink" "device_authentication"
                  {[ "func" := "async_turn_on"; "exc" := "Login failed" ]}
                  (Exc AuthenticationError "Login failed")),
        [StartReauth]).
Proof.
  split.
  - exact (proj1 (proj1 (refresh_after_write "tplink" turn_on sample_entity
                           [] []) eq_refl)).
  - exact (proj1 (proj2 (refresh_after_write "tplink" turn_on_rejected
                           sample_entity [] [])
                    AuthenticationError "Login failed" eq_refl eq_refl)).
Defined.

(** A Debug feature is disabled by default, a Config feature is not, and
    the caller can enable the Debug one. *)
Lemma description_for_feature_fields_witness :
  EntityDescription.entity_registry_enabled_default
    (_description_for_feature feat_rssi
       {| entity_registry_enabled_default := None |}) = false
  /\ EntityDescription.entity_registry_enabled_default
       (_description_for_feature feat_led
          {| entity_registry_enabled_default := None |}) = true
  /\ EntityDescription.entity_registry_enabled_default
       (_description_for_feature feat_rssi
          {| entity_registry_enabled_default := Some true |}) = true.
Proof.
  split; [| split].
  - destruct (description_for_feature_fields feat_rssi
                {| entity_registry_enabled_default := None |})
      as (_ & _ & _ & Hdefault & _).
    apply (Hdefault eq_refl). reflexivity.
  - destruct (description_for_feature_fields feat_led
                {| entity_registry_enabled_default := None |})
      as (_ & _ & _ & Hdefault & _).
    apply (Hdefault eq_refl). discriminate.
  - destruct (description_for_feature_fields feat_rssi
                {| entity_registry_enabled_default := Some true |})
      as (_ & _ & _ & _ & Hkept).
    apply Hkept. reflexivity.
Defined.

(** ** The further properties at the sample objects *)



(** The legacy sensor path: a sensor entity with a description and no
    feature. *)
Lemma unique_id_defined_iff_witness :
  _get_unique_id "state" sample_legacy_device_id legacy_sensor_class
    plug_child None
  = Some "8006AAAA_01_current_consumption".
Proof.
  exact (proj2 (unique_id_defined_iff "state" sample_legacy_device_id
                  legacy_sensor_class plug_child None)
           _ eq_refl eq_refl eq_refl).
Defined.

(** A sensor entity described from the rssi feature and one built for that
    feature. *)
Lemma description_unique_id_matches_feature_witness :
  _get_unique_id "state" sample_legacy_device_id
    {| isinstance_SensorEntity := true;
       isinstance_LightEntity := false;
       entity_description :=
         Some (_description_for_feature feat_rssi
                 {| entity_registry_enabled_default := None |}) |}
    plug_child None
  = _get_unique_id "state" sample_legacy_device_id sensor_class plug_child
      (Some feat_rssi).
Proof.
  apply (description_unique_id_matches_feature "state"
           sample_legacy_device_id _ sensor_class plug_child feat_rssi
           {| entity_registry_enabled_default := None |});
    [reflexivity | reflexivity | discriminate].
Defined.

(** The light of a legacy dimmer and its state switch. *)
Lemma legacy_dimmer_light_shares_primary_state_id_witness :
  _get_unique_id "state" sample_legacy_device_id light_class dimmer_iot None
  = _get_unique_id "state" sample_legacy_device_id switch_class dimmer_iot
      (Some feat_state).
Proof.
  exact (legacy_dimmer_light_shares_primary_state_id "state"
           sample_legacy_device_id light_class switch_class dimmer_iot
           feat_state eq_refl eq_refl eq_refl eq_refl).
Defined.

(** A KeyError of the action's own code leaves the wrapper untranslated. *)
Lemma wrapper_passes_other_exceptions_witness :
  async_refresh_after "tplink" write_with_bug sample_entity []
  = (Raised (Exc KeyError "'value'"), []).
Proof.
  exact (wrapper_passes_other_exceptions "tplink" write_with_bug
           sample_entity [] [] (Exc KeyError "'value'") eq_refl eq_refl).
Defined.

(** The wrapper around an action that returns. *)
Lemma wrapper_returns_only_after_success_witness :
  exists w',
    call turn_on sample_entity [] = (Returned tt, w')
    /\ [RequestRefresh] = w' ++ [RequestRefresh].
Proof.
  exact (wrapper_returns_only_after_success "tplink" turn_on sample_entity
           [] [RequestRefresh] eq_refl).
Defined.

(** A socket with an empty [hw_info]: no number feature, so an empty list;
    a switch feature, so the KeyError. *)
Lemma enumerator_on_device_without_versions_witness :
  _entities_for_device "tplink" "state" "mac" sample_legacy_device_id
    bare_socket 0 Feature.Number switch_class None [] = (Returned [], [])
  /\ _entities_for_device "tplink" "state" "mac" sample_legacy_device_id
       bare_socket 0 Feature.Switch switch_class None []
     = (Raised (Exc KeyError "'sw_ver'"), []).
Proof.
  split.
  - exact (enumerator_on_device_without_versions
             "tplink" "state" "mac" sample_legacy_device_id
             bare_socket 0 Feature.Number switch_class [] eq_refl).
  - exact (enumerator_on_device_without_versions
             "tplink" "state" "mac" sample_legacy_device_id
             bare_socket 0 Feature.Switch switch_class [] eq_refl).
Defined.

Lemma sample_feature_ids_distinct :
  NoDup (Feature.id <$> Device.features_values plug_child).
Proof.
  apply (bool_decide_unpack _). by vm_compute.
Qed.

(** The switches of a strip socket have distinct unique ids. *)
Lemma enumerated_unique_ids_distinct_witness :
  exists es w',
    _entities_for_device "tplink" "state" "mac" sample_legacy_device_id
      plug_child 0 Feature.Switch switch_class (Some strip_parent) []
    = (Returned es, w')
    /\ NoDup (_attr_unique_id <$> es).
Proof.
  destruct (_entities_for_device_returns
              "tplink" "state" "mac" sample_legacy_device_id
              plug_child 0 Feature.Switch switch_class (Some strip_parent) [])
    as (es & w' & Hes); [split; by eexists | split; by eexists |].
  exists es, w'. split; [exact Hes |].
  exact (enumerated_unique_ids_distinct
           "tplink" "state" "mac" sample_legacy_device_id
           plug_child 0 Feature.Switch switch_class (Some strip_parent)
           [] es w' sample_feature_ids_distinct Hes).
Defined.

(** The switches of a strip socket are well formed. *)
Lemma enumerated_entities_well_formed_witness :
  exists es w',
    _entities_for_device "tplink" "state" "mac" sample_legacy_device_id
      plug_child 0 Feature.Switch switch_class (Some strip_parent) []
    = (Returned es, w')
    /\ Forall (fun e => is_Some (_attr_unique_id e)) es.
Proof.
  destruct (_entities_for_device_returns
              "tplink" "state" "mac" sample_legacy_device_id
              plug_child 0 Feature.Switch switch_class (Some strip_parent) [])
    as (es & w' & Hes); [split; by eexists | split; by eexists |].
  exists es, w'. split; [exact Hes |].
  eapply Forall_impl;
    [exact (enumerated_entities_well_formed
              "tplink" "state" "mac" sample_legacy_device_id
              plug_child 0 Feature.Switch switch_class (Some strip_parent)
              [] es w' Hes) |].
  intros e (_ & Hid & _). exact Hid.
Defined.

(** The switches of a strip with one socket: those of the socket, then
    those of the strip. *)
Lemma children_first_enumeration_witness :
  exists es w',
    _entities_for_device_and_its_children "tplink" "state" "mac"
      sample_legacy_device_id strip_with_sockets 0 Feature.Switch
      switch_class [] = (Returned es, w')
    /\ built_for <$> es
       = [(plug_child, Some feat_state); (plug_child, Some feat_led);
          (strip_with_sockets, Some feat_state);
          (strip_with_sockets, Some feat_led)].
Proof.
  assert (Hdev : has_versions strip_with_sockets) by (split; by eexists).
  assert (Hchildren : Forall has_versions (Device.children strip_with_sockets)).
  { repeat constructor; by eexists. }
  destruct (proj2 (proj2 (children_first_enumeration
                            "tplink" "state" "mac" sample_legacy_device_id
                            strip_with_sockets 0 Feature.Switch switch_class
                            [])) Hdev Hchildren) as (es & w' & Hes).
  exists es, w'. split; [exact Hes |].
  exact (proj1 (proj2 (children_first_enumeration
                         "tplink" "state" "mac" sample_legacy_device_id
                         strip_with_sockets 0 Feature.Switch switch_class
                         [])) es w' Hes).
Defined.

